(** * tts_edge_server: a local Edge-TTS HTTP server

    A shallow embedding of [tts_edge_server.py] and the properties of its
    three request handlers.

    The server is a thin layer over two things it does not define: the
    Python builtins ([str], [float], truthiness) and the [edge_tts] client
    library.  Both appear below as explicit parameters; everything the
    module itself writes (argument parsing, defaults, the chunk loop, the
    mapping of failures to HTTP responses) is translated function by
    function. *)

From Stdlib Require Import ZArith NArith Bool List.
From Stdlib Require Import Strings.String Strings.Ascii Init.Byte.
From Stdlib Require Import Numbers.DecimalString.
From stdpp Require Import base option list gmap fin_maps.

Set Warnings "-register-all".

(** ** Python strings *)

(** A Python [str] is a sequence of Unicode code points. *)
Definition pystr : Type := list N.

(** Source literals are ASCII; [py] reads one as a [pystr]. *)
Definition py (s : string) : pystr :=
  List.map N_of_ascii (list_ascii_of_string s).

Module Str.

(** [str.isspace] on one code point: the characters [str.strip()] removes
    when called without an argument. *)
Definition is_space (c : N) : bool :=
  (N.leb 9 c && N.leb c 13)          (* \t \n \v \f \r *)
  || (N.leb 28 c && N.leb c 32)      (* FS GS RS US and space *)
  || N.eqb c 133 || N.eqb c 160      (* NEL, no-break space *)
  || N.eqb c 5760                    (* U+1680 *)
  || (N.leb 8192 c && N.leb c 8202)  (* U+2000 .. U+200A *)
  || N.eqb c 8232 || N.eqb c 8233    (* line and paragraph separator *)
  || N.eqb c 8239 || N.eqb c 8287    (* U+202F, U+205F *)
  || N.eqb c 12288.                  (* ideographic space *)

Fixpoint lstrip (s : pystr) : pystr :=
  match s with
  | c :: rest => if is_space c then lstrip rest else s
  | [] => []
  end.

Definition rstrip (s : pystr) : pystr := rev (lstrip (rev s)).

(** [s.strip()] *)
Definition strip (s : pystr) : pystr := rstrip (lstrip s).

(** Empty or made of whitespace only. *)
Definition blank (s : pystr) : bool := forallb is_space s.

(** [sep.join(parts)] *)
Fixpoint join (sep : pystr) (parts : list pystr) : pystr :=
  match parts with
  | [] => []
  | [p] => p
  | p :: rest => p ++ sep ++ join sep rest
  end.

(** [str(n)] for an [int]. *)
Definition of_Z (z : Z) : pystr := py (NilEmpty.string_of_int (Z.to_int z)).

End Str.

(** ** Python values *)

(** A Python [float], as the bit pattern of its IEEE-754 binary64. *)
Definition pyfloat : Type := Z.

(** The objects [request.get_json] and [edge_tts.list_voices] produce:
    what [json.loads] builds.  [VNone] is both JSON [null] and the [None]
    that [get_json(silent=True)] returns for a body that is missing or is
    not JSON. *)
Inductive value : Type :=
| VNone
| VBool (b : bool)
| VInt (z : Z)
| VFloat (f : pyfloat)
| VStr (s : pystr)
| VList (l : list value)
| VDict (d : gmap pystr value).

(** [bool(f)] for a float: false for [0.0] and [-0.0]. *)
Definition float_truthy (f : pyfloat) : bool :=
  negb (Z.eqb (Z.land f (Z.ones 63)) 0).

(** [bool(v)], the test behind [or], [and], [if] and [not]. *)
Definition truthy (v : value) : bool :=
  match v with
  | VNone => false
  | VBool b => b
  | VInt z => negb (Z.eqb z 0)
  | VFloat f => float_truthy f
  | VStr s => match s with [] => false | _ => true end
  | VList l => match l with [] => false | _ => true end
  | VDict d => match map_to_list d with [] => false | _ => true end
  end.

(** [type(v).__name__] *)
Definition type_name (v : value) : pystr :=
  match v with
  | VNone => py "NoneType"
  | VBool _ => py "bool"
  | VInt _ => py "int"
  | VFloat _ => py "float"
  | VStr _ => py "str"
  | VList _ => py "list"
  | VDict _ => py "dict"
  end.

(** An instance of [Exception]; [str(exc)] is [exn_str]. *)
Record exn : Type := Exception { exn_class : pystr; exn_str : pystr }.

Inductive outcome (A : Type) : Type :=
| Returned (a : A)
| Raised (e : exn).
Arguments Returned {A} a.
Arguments Raised {A} e.

(** The builtins whose results the module only passes along. *)
Record builtins : Type := Builtins {
  (** [str(v)] for a float, a list or a dict *)
  py_repr : value -> pystr;
  (** [float(v)]: [ValueError] or [TypeError] when [v] has no float reading *)
  py_float : value -> outcome pyfloat
}.

(** [str(v)] *)
Definition py_str (bi : builtins) (v : value) : pystr :=
  match v with
  | VStr s => s
  | VNone => py "None"
  | VBool true => py "True"
  | VBool false => py "False"
  | VInt z => Str.of_Z z
  | VFloat _ | VList _ | VDict _ => py_repr bi v
  end.

(** ** The edge_tts client *)

(** What a stream chunk (a dict) may hold under a key. *)
Inductive chunk_value : Type :=
| CStr (s : pystr)
| CBytes (b : list byte)
| CInt (z : Z)
| CNone.

(** The keyword arguments of [edge_tts.Communicate]. *)
Inductive kwarg : Type :=
| KStr (s : pystr)
| KFloat (f : pyfloat).

(** The library as the server sees it.  [Communicate kw] is the run of the
    stream of a client built from the keyword arguments [kw]: the chunks it
    yields, in order, and the exception that ends it if one does (raised by
    the constructor, then with no chunk, or by the stream). *)
Record edge_tts : Type := EdgeTts {
  Communicate : gmap pystr kwarg -> list (gmap pystr chunk_value) * option exn;
  (** [hasattr(edge_tts, "list_voices")] *)
  has_list_voices : bool;
  list_voices : outcome value;
  (** [VoicesManager.create()], as the [voices] attribute of the manager it
      returns: [None] when the manager has no such attribute. *)
  VoicesManager_create : outcome (option value)
}.

(** ** HTTP responses *)

Inductive payload : Type :=
| JsonBody (v : value)
| RawBody (b : list byte).

Record response : Type := Response {
  status : Z;
  mimetype : pystr;
  body : payload
}.

(** [jsonify(obj), code] *)
Definition jsonify (obj : gmap pystr value) (code : Z) : response :=
  {| status := code; mimetype := py "application/json"; body := JsonBody (VDict obj) |}.

(** The Flask request context, as far as the handlers read it:
    [get_json] is the result of [request.get_json(silent=True)]. *)
Record request : Type := Request { get_json : value }.

(** ** Computations *)

(** The arguments of one call of [synthesize_to_mp3_bytes]. *)
Record synth_args : Type := SynthArgs {
  text : pystr;
  voice : pystr;
  rate : pystr;
  volume : pystr;
  pitch : pystr;
  word_boundary : bool;
  sentence_boundary : bool;
  proxy : option pystr;
  connect_timeout : value;
  receive_timeout : value
}.

(** The calls a handler makes that leave it: into the synthesis routine
    and into the client library. *)
Inductive event : Type :=
| CallSynthesize (a : synth_args)
| CallCommunicate (kw : gmap pystr kwarg)
| CallListVoices
| CallVoicesManager.

(** A computation ends by returning or by raising, and leaves the list of
    calls it made, oldest first. *)
Definition M (A : Type) : Type := (outcome A * list event)%type.

Definition result {A} (m : M A) : outcome A := fst m.
Definition calls {A} (m : M A) : list event := snd m.

Definition ret {A} (a : A) : M A := (Returned a, []).
Definition raise {A} (e : exn) : M A := (Raised e, []).
Definition call (ev : event) : M unit := (Returned tt, [ev]).
Definition lift {A} (o : outcome A) : M A := (o, []).

Definition bind {A B} (m : M A) (k : A -> M B) : M B :=
  match m with
  | (Returned a, t) => let (r, t') := k a in (r, t ++ t')
  | (Raised e, t) => (Raised e, t)
  end.

(** [try: m  except Exception as exc: h exc] *)
Definition try_except {A} (m : M A) (h : exn -> M A) : M A :=
  match m with
  | (Raised e, t) => let (r, t') := h e in (r, t ++ t')
  | (Returned a, t) => (Returned a, t)
  end.

#[global] Instance M_ret : MRet M := @ret.
#[global] Instance M_bind : MBind M := fun A B k m => bind m k.

(** ** The module *)

Definition DEFAULT_VOICE : pystr := py "zh-CN-XiaoxiaoNeural".
Definition DEFAULT_RATE : pystr := py "+0%".
Definition DEFAULT_VOLUME : pystr := py "+0%".
Definition DEFAULT_PITCH : pystr := py "+0Hz".

Definition FALLBACK_VOICES : list value := [
  VDict (list_to_map [(py "ShortName", VStr (py "zh-CN-XiaoxiaoNeural"));
                      (py "Locale", VStr (py "zh-CN")); (py "Gender", VStr (py "Female"))]);
  VDict (list_to_map [(py "ShortName", VStr (py "zh-CN-YunxiNeural"));
                      (py "Locale", VStr (py "zh-CN")); (py "Gender", VStr (py "Male"))]);
  VDict (list_to_map [(py "ShortName", VStr (py "zh-CN-XiaoyiNeural"));
                      (py "Locale", VStr (py "zh-CN")); (py "Gender", VStr (py "Female"))]);
  VDict (list_to_map [(py "ShortName", VStr (py "zh-CN-YunjianNeural"));
                      (py "Locale", VStr (py "zh-CN")); (py "Gender", VStr (py "Male"))])
].

(** [run_async(coro)] runs the coroutine to its end on a worker thread and
    hands back its result, or raises what it raised. *)
Definition run_async {A} (coro : M A) : M A := coro.

Definition build_boundary_option (word_boundary sentence_boundary : bool) : option pystr :=
  let opts : list pystr := [] in
  let opts := if sentence_boundary then opts ++ [py "SentenceBoundary"] else opts in
  let opts := if word_boundary then opts ++ [py "WordBoundary"] else opts in
  match opts with
  | [] => None
  | _ => Some (Str.join (py ",") opts)
  end.

(** One turn of the [async for] loop: the list [chunks] after [chunk]. *)
Definition stream_step (chunks : list (list byte)) (chunk : gmap pystr chunk_value)
  : list (list byte) :=
  match chunk !! py "type" with
  | Some (CStr t) =>
      if decide (t = py "audio") then
        match default (CBytes []) (chunk !! py "data") with
        | CBytes ((_ :: _) as data) => chunks ++ [data]
        | _ => chunks
        end
      else chunks
  | _ => chunks
  end.

Section Server.

Variable bi : builtins.
Variable lib : edge_tts.

(** [kwargs[key] = float(v)] under [if v is not None] *)
Definition set_timeout (key : pystr) (v : value) (kwargs : gmap pystr kwarg)
  : M (gmap pystr kwarg) :=
  match v with
  | VNone => mret kwargs
  | _ => f ← lift (py_float bi v); mret (<[key := KFloat f]> kwargs)
  end.

(** The first step records that the routine was entered; the rest follows
    the source line by line. *)
Definition synthesize_to_mp3_bytes (a : synth_args) : M (list byte) :=
  _ ← call (CallSynthesize a);
  let kwargs : gmap pystr kwarg :=
    list_to_map [(py "text", KStr (text a)); (py "voice", KStr (voice a));
                 (py "rate", KStr (rate a)); (py "volume", KStr (volume a));
                 (py "pitch", KStr (pitch a))] in
  let boundary := build_boundary_option (word_boundary a) (sentence_boundary a) in
  let kwargs :=
    match boundary with
    | Some ((_ :: _) as b) => <[py "boundary" := KStr b]> kwargs
    | _ => kwargs
    end in
  let kwargs :=
    match proxy a with
    | Some ((_ :: _) as p) => <[py "proxy" := KStr p]> kwargs
    | _ => kwargs
    end in
  kwargs ← set_timeout (py "connect_timeout") (connect_timeout a) kwargs;
  kwargs ← set_timeout (py "receive_timeout") (receive_timeout a) kwargs;
  _ ← call (CallCommunicate kwargs);
  let '(stream, failure) := Communicate lib kwargs in
  let chunks := fold_left stream_step stream [] in
  match failure with
  | Some exc => raise exc
  | None => mret (concat chunks)
  end.

(** [data.get(key, dflt)]; an object that is not a dict has no [get]. *)
Definition dict_get (data : value) (key : pystr) (dflt : value) : M value :=
  match data with
  | VDict d => mret (default dflt (d !! key))
  | _ => raise (Exception (py "AttributeError")
                  (py "'" ++ type_name data ++ py "' object has no attribute 'get'"))
  end.

(** [str(data.get(key, dflt)).strip() or dflt] *)
Definition str_field (data : value) (key : pystr) (dflt : pystr) : M pystr :=
  v ← dict_get data key (VStr dflt);
  mret (match Str.strip (py_str bi v) with [] => dflt | s => s end).

Definition tts_api (req : request) : M response :=
  let data := if truthy (get_json req) then get_json req else VDict ∅ in
  text ← (v ← dict_get data (py "text") (VStr []); mret (Str.strip (py_str bi v)));
  voice ← str_field data (py "voice") DEFAULT_VOICE;
  rate ← str_field data (py "rate") DEFAULT_RATE;
  volume ← str_field data (py "volume") DEFAULT_VOLUME;
  pitch ← str_field data (py "pitch") DEFAULT_PITCH;
  word_boundary ← (v ← dict_get data (py "word_boundary") (VBool false); mret (truthy v));
  sentence_boundary ← (v ← dict_get data (py "sentence_boundary") (VBool false); mret (truthy v));
  proxy ← dict_get data (py "proxy") VNone;
  let proxy :=
    match proxy with
    | VStr p => match Str.strip p with [] => None | s => Some s end
    | _ => None
    end in
  connect_timeout ← dict_get data (py "connect_timeout") VNone;
  receive_timeout ← dict_get data (py "receive_timeout") VNone;
  match text with
  | [] => mret (jsonify {[ py "error" := VStr (py "text is required") ]} 400)
  | _ =>
      try_except
        (audio ← run_async (synthesize_to_mp3_bytes
                   {| text := text; voice := voice; rate := rate; volume := volume;
                      pitch := pitch; word_boundary := word_boundary;
                      sentence_boundary := sentence_boundary; proxy := proxy;
                      connect_timeout := connect_timeout;
                      receive_timeout := receive_timeout |});
         match audio with
         | [] => mret (jsonify {[ py "error" := VStr (py "empty audio") ]} 500)
         | _ => mret {| status := 200; mimetype := py "audio/mpeg"; body := RawBody audio |}
         end)
        (fun exc => mret (jsonify {[ py "error" := VStr (exn_str exc) ]} 500))
  end.

(** The [try] block of [voices_api] up to the list it obtains. *)
Definition fetch_voices : M value :=
  if has_list_voices lib then
    _ ← call CallListVoices;
    run_async (lift (list_voices lib))
  else
    _ ← call CallVoicesManager;
    manager ← run_async (lift (VoicesManager_create lib));
    let voices := default (VList []) manager in
    mret (if truthy voices then voices else VList []).

Definition voices_api (req : request) : M response :=
  try_except
    (voices ← fetch_voices;
     mret (jsonify (list_to_map [(py "ok", VBool true); (py "fallback", VBool false);
                                 (py "voices", voices)]) 200))
    (fun exc =>
       mret (jsonify (list_to_map [(py "ok", VBool false); (py "fallback", VBool true);
                                   (py "error", VStr (exn_str exc));
                                   (py "voices", VList FALLBACK_VOICES)]) 200)).

Definition health (req : request) : M response :=
  mret (jsonify {[ py "ok" := VBool true ]} 200).

(** ** Reading the handlers *)

(** [str(d.get(key, dflt)).strip() or dflt] on a body that is the dict [d]. *)
Definition str_or (d : gmap pystr value) (key dflt : pystr) : pystr :=
  match Str.strip (py_str bi (default (VStr dflt) (d !! key))) with
  | [] => dflt
  | s => s
  end.

(** The field is absent from [d], or is there with nothing left of it after
    stripping. *)
Definition absent_or_blank (d : gmap pystr value) (key : pystr) : Prop :=
  match d !! key with
  | None => True
  | Some v => Str.strip (py_str bi v) = []
  end.

(** What lines 102-112 of [tts_api] compute from a body that is the dict
    [d]: the arguments it then passes to [synthesize_to_mp3_bytes]. *)
Definition request_args (d : gmap pystr value) : synth_args :=
  {| text := Str.strip (py_str bi (default (VStr []) (d !! py "text")));
     voice := str_or d (py "voice") DEFAULT_VOICE;
     rate := str_or d (py "rate") DEFAULT_RATE;
     volume := str_or d (py "volume") DEFAULT_VOLUME;
     pitch := str_or d (py "pitch") DEFAULT_PITCH;
     word_boundary := truthy (default (VBool false) (d !! py "word_boundary"));
     sentence_boundary := truthy (default (VBool false) (d !! py "sentence_boundary"));
     proxy :=
       match default VNone (d !! py "proxy") with
       | VStr p => match Str.strip p with [] => None | s => Some s end
       | _ => None
       end;
     connect_timeout := default VNone (d !! py "connect_timeout");
     receive_timeout := default VNone (d !! py "receive_timeout") |}.

End Server.

(** The fields of a request body.  A body that is missing, is not JSON or
    is a falsy JSON value has none ([data] is then the empty dict); a JSON
    object has its own; any other body is not a dict and has no reading as
    one. *)
Definition body_fields (body : value) : option (gmap pystr value) :=
  match body with
  | VDict d => Some d
  | _ => if truthy body then None else Some ∅
  end.


(** The field [key] of a JSON response body. *)
Definition json_field (r : response) (key : pystr) : option value :=
  match body r with
  | JsonBody (VDict obj) => obj !! key
  | _ => None
  end.

(** The four tuning fields of a [/api/tts] body, each with its default. *)
Definition tuning_defaults : list (pystr * pystr) :=
  [(py "voice", DEFAULT_VOICE); (py "rate", DEFAULT_RATE);
   (py "volume", DEFAULT_VOLUME); (py "pitch", DEFAULT_PITCH)].

(** The keyword arguments [kw] carry the five string arguments of [a]. *)
Definition passes (a : synth_args) (kw : gmap pystr kwarg) : Prop :=
  kw !! py "text" = Some (KStr (text a))
  /\ kw !! py "voice" = Some (KStr (voice a))
  /\ kw !! py "rate" = Some (KStr (rate a))
  /\ kw !! py "volume" = Some (KStr (volume a))
  /\ kw !! py "pitch" = Some (KStr (pitch a)).

(** The chunk is of type [audio]. *)
Definition is_audio (chunk : gmap pystr chunk_value) : bool :=
  match chunk !! py "type" with
  | Some (CStr t) => bool_decide (t = py "audio")
  | _ => false
  end.

(** The bytes a chunk carries under [data]. *)
Definition chunk_data (chunk : gmap pystr chunk_value) : list byte :=
  match chunk !! py "data" with
  | Some (CBytes b) => b
  | _ => []
  end.

(** The data of the audio chunks of a stream, joined in stream order. *)
Definition audio_of_stream (stream : list (gmap pystr chunk_value)) : list byte :=
  concat (List.map chunk_data (List.filter is_audio stream)).





(** ** Sample environments *)

Definition sample_builtins : builtins :=
  {| py_repr := fun _ => py "<object>";
     py_float := fun v =>
       match v with
       | VFloat f => Returned f
       | _ => Raised (Exception (py "TypeError")
                        (py "float() argument must be a string or a real number"))
       end |}.

Definition audio_chunk (b : list byte) : gmap pystr chunk_value :=
  list_to_map [(py "type", CStr (py "audio")); (py "data", CBytes b)].

Definition word_chunk : gmap pystr chunk_value :=
  list_to_map [(py "type", CStr (py "WordBoundary")); (py "offset", CInt 100);
               (py "text", CStr (py "hi"))].

(** A client that streams three chunks and lists one voice. *)
Definition sample_lib : edge_tts :=
  {| Communicate := fun _ =>
       ([audio_chunk [x01; x02]; word_chunk; audio_chunk [x03]], None);
     has_list_voices := true;
     list_voices := Returned (VList [VStr (py "en-US-AriaNeural")]);
     VoicesManager_create := Returned None |}.


(** A client whose stream carries no audio and whose voice list is empty. *)
Definition silent_lib : edge_tts :=
  {| Communicate := fun _ => ([word_chunk], None);
     has_list_voices := true;
     list_voices := Returned (VList []);
     VoicesManager_create := Returned None |}.

Definition body_of (fields : list (pystr * value)) : request :=
  Request (VDict (list_to_map fields)).

(** ** Reading the keyword arguments *)

(** [float(v)] unless [v] is [None]: what one timeout adds to the keyword
    arguments, if anything. *)
Definition float_arg (bi : builtins) (v : value) : outcome (option pyfloat) :=
  match v with
  | VNone => Returned None
  | _ =>
      match py_float bi v with
      | Returned f => Returned (Some f)
      | Raised e => Raised e
      end
  end.

(** [if s: kwargs[key] = s] for an optional string. *)
Definition set_truthy (key : pystr) (o : option pystr) (kw : gmap pystr kwarg)
  : gmap pystr kwarg :=
  match o with
  | Some ((_ :: _) as s) => <[key := KStr s]> kw
  | _ => kw
  end.

(** [kwargs[key] = f] for a converted timeout, when there is one. *)
Definition set_float (key : pystr) (o : option pyfloat) (kw : gmap pystr kwarg)
  : gmap pystr kwarg :=
  match o with
  | Some f => <[key := KFloat f]> kw
  | None => kw
  end.

(** The keyword arguments [synthesize_to_mp3_bytes] builds from [a] once the
    two timeouts have been converted to [ct] and [rt]. *)
Definition kwargs_of (a : synth_args) (ct rt : option pyfloat) : gmap pystr kwarg :=
  set_float (py "receive_timeout") rt
    (set_float (py "connect_timeout") ct
       (set_truthy (py "proxy") (proxy a)
          (set_truthy (py "boundary")
             (build_boundary_option (word_boundary a) (sentence_boundary a))
             (list_to_map [(py "text", KStr (text a)); (py "voice", KStr (voice a));
                           (py "rate", KStr (rate a)); (py "volume", KStr (volume a));
                           (py "pitch", KStr (pitch a))])))).

(** The keyword names the client can be given. *)
Definition kwarg_names : list pystr :=
  [py "text"; py "voice"; py "rate"; py "volume"; py "pitch"; py "boundary";
   py "proxy"; py "connect_timeout"; py "receive_timeout"].

(** The fields of a body that [tts_api] reads. *)
Definition body_keys : list pystr :=
  [py "text"; py "voice"; py "rate"; py "volume"; py "pitch"; py "word_boundary";
   py "sentence_boundary"; py "proxy"; py "connect_timeout"; py "receive_timeout"].

(** The answers of [tts_api]. *)
Definition audio_response (audio : list byte) : response :=
  {| status := 200; mimetype := py "audio/mpeg"; body := RawBody audio |}.

Definition error_response (msg : pystr) (code : Z) : response :=
  jsonify {[ py "error" := VStr msg ]} code.


(** A body that sets a voice, a proxy, a flag and a timeout. *)
Definition sample_dict : gmap pystr value :=
  list_to_map [(py "text", VStr (py " hi "));
               (py "voice", VStr (py " en-US-AriaNeural "));
               (py "proxy", VStr (py " http://127.0.0.1:8080 "));
               (py "word_boundary", VBool true);
               (py "connect_timeout", VFloat 4621819117588971520%Z)].

(** The keyword arguments the handler builds from [sample_dict]. *)
Definition sample_kwargs : gmap pystr kwarg :=
  kwargs_of (request_args sample_builtins sample_dict) (Some 4621819117588971520%Z) None.

(** A client without [list_voices], whose manager has no [voices]. *)
Definition manager_lib : edge_tts :=
  {| Communicate := fun _ => ([], None);
     has_list_voices := false;
     list_voices := Raised (Exception (py "AttributeError") (py "list_voices"));
     VoicesManager_create := Returned None |}.

(** * Properties *)

(** ** Stripping *)

Module StrFacts.
Import Str.

Lemma lstrip_nil_blank s : lstrip s = [] <-> blank s = true.
Proof.
  induction s as [|c rest IH]; simpl; [tauto|].
  destruct (is_space c); simpl; [exact IH|].
  split; discriminate.
Qed.

Lemma lstrip_blank_inv s : blank (lstrip s) = true -> blank s = true.
Proof.
  induction s as [|c rest IH]; simpl; [tauto|].
  destruct (is_space c) eqn:Hc; simpl; [exact IH|].
  rewrite Hc. discriminate.
Qed.

Lemma blank_rev s : blank (rev s) = blank s.
Proof.
  unfold blank. induction s as [|c rest IH]; simpl; [reflexivity|].
  rewrite forallb_app, IH. simpl. rewrite andb_true_r. apply andb_comm.
Qed.

Lemma rev_nil_inv {A} (l : list A) : rev l = [] -> l = [].
Proof.
  intros H. apply (f_equal (@rev A)) in H. now rewrite rev_involutive in H.
Qed.

(** [strip] leaves nothing exactly when the string is blank. *)
Lemma strip_nil_blank s : strip s = [] <-> blank s = true.
Proof.
  unfold strip, rstrip. split.
  - intros H. apply rev_nil_inv in H.
    apply lstrip_nil_blank in H. rewrite blank_rev in H.
    now apply lstrip_blank_inv.
  - intros H. apply lstrip_nil_blank in H. now rewrite H.
Qed.

Lemma strip_blank s : blank s = true -> strip s = [].
Proof. apply strip_nil_blank. Qed.

End StrFacts.

(** ** Computations *)

Ltac unfold_M :=
  unfold mbind, M_bind, mret, M_ret, bind, ret, raise, call, lift, run_async,
    try_except, result, calls in *.

Lemma bind_ret_l {A B} (a : A) (k : A -> M B) : (x ← mret a; k x) = k a.
Proof. unfold_M. by destruct (k a). Qed.

Lemma bind_lift {A B} (o : outcome A) (k : A -> M B) :
  (x ← lift o; k x) = match o with Returned a => k a | Raised e => raise e end.
Proof. unfold_M. destruct o as [a|e]; [by destruct (k a)|done]. Qed.

Lemma bind_call {B} (ev : event) (k : unit -> M B) :
  (x ← call ev; k x) = (result (k tt), ev :: calls (k tt)).
Proof. unfold_M. by destruct (k tt). Qed.

Lemma try_except_returned {A} (a : A) t h : try_except (Returned a, t) h = (Returned a, t).
Proof. done. Qed.

Lemma try_except_raised {A} e t (h : exn -> M A) :
  try_except (Raised e, t) h = (result (h e), t ++ calls (h e)).
Proof. unfold_M. by destruct (h e). Qed.

Section Properties.

Variable bi : builtins.
Variable lib : edge_tts.

(** *** The keyword arguments *)

Lemma set_timeout_pure key v kw :
  exists o, set_timeout bi key v kw = lift o.
Proof.
  unfold set_timeout.
  destruct v; try (by exists (Returned kw));
    rewrite bind_lift; destruct (py_float bi _); by eexists (_).
Qed.

Lemma set_timeout_lookup key v kw kw' k :
  set_timeout bi key v kw = lift (Returned kw') -> k ≠ key -> kw' !! k = kw !! k.
Proof.
  unfold set_timeout. intros H Hk.
  destruct v; try (by inversion H);
    rewrite bind_lift in H; destruct (py_float bi _); inversion H;
    by rewrite lookup_insert_ne.
Qed.

(** [synthesize_to_mp3_bytes] either stops while it converts a timeout, or
    calls the client once and ends as the stream ends. *)
Lemma synthesize_cases a :
  (exists e, synthesize_to_mp3_bytes bi lib a = (Raised e, [CallSynthesize a]))
  \/ (exists kw, passes a kw
      /\ synthesize_to_mp3_bytes bi lib a =
         (match Communicate lib kw with
          | (_, Some exc) => Raised exc
          | (stream, None) => Returned (concat (fold_left stream_step stream []))
          end,
          [CallSynthesize a; CallCommunicate kw])).
Proof.
  unfold synthesize_to_mp3_bytes. rewrite bind_call.
  set (kw0 := list_to_map _ : gmap pystr kwarg).
  set (kw1 := match build_boundary_option _ _ with Some (_ :: _ as b) => _ | _ => _ end).
  set (kw2 := match proxy a with Some (_ :: _ as p) => _ | _ => _ end).
  assert (H2 : passes a kw2).
  { subst kw2 kw1 kw0.
    destruct (build_boundary_option _ _) as [[|]|], (proxy a) as [[|]|];
      repeat split; by simplify_map_eq. }
  clearbody kw2. clear kw1 kw0.
  destruct (set_timeout_pure (py "connect_timeout") (connect_timeout a) kw2) as [[kw3|e] H3];
    rewrite H3, bind_lift; [|left; by exists e].
  destruct (set_timeout_pure (py "receive_timeout") (receive_timeout a) kw3) as [[kw4|e] H4];
    rewrite H4, bind_lift; [|left; by exists e].
  right. exists kw4. split.
  - destruct H2 as (?&?&?&?&?).
    repeat split;
      (rewrite (set_timeout_lookup _ _ _ _ _ H4) by done;
       rewrite (set_timeout_lookup _ _ _ _ _ H3) by done; done).
  - rewrite bind_call. destruct (Communicate lib kw4) as [stream [exc|]]; done.
Qed.

(** A client call that ends in an exception makes the synthesis raise it. *)
Lemma synthesize_client_failure a kw e :
  CallCommunicate kw ∈ calls (synthesize_to_mp3_bytes bi lib a) ->
  snd (Communicate lib kw) = Some e ->
  result (synthesize_to_mp3_bytes bi lib a) = Raised e.
Proof.
  destruct (synthesize_cases a) as [[e' ->]|(kw' & _ & ->)]; simpl; intros Hin He.
  - apply list_elem_of_singleton in Hin. discriminate.
  - apply elem_of_cons in Hin as [Hin|Hin]; [discriminate|].
    apply list_elem_of_singleton in Hin. injection Hin as <-.
    destruct (Communicate lib kw) as [stream failure]; simpl in He. by subst.
Qed.

(** *** The body of a request *)

Lemma data_fields body d :
  body_fields body = Some d ->
  (if truthy body then body else VDict ∅) = VDict d.
Proof.
  destruct body as [| b | z | f | s | l | d']; simpl; intros H;
    try (repeat case_match; by simplify_eq).
  inversion H; subst. destruct (map_to_list d) eqn:E; [|done].
  by apply map_to_list_empty_iff in E as ->.
Qed.


(** [tts_api] on a body with fields [d], in closed form: the answer to a
    blank text, or else the outcome of the synthesis call turned into a
    response, with the calls the synthesis made. *)
Lemma tts_api_closed req d :
  body_fields (get_json req) = Some d ->
  tts_api bi lib req
  = match text (request_args bi d) with
    | [] => mret (jsonify {[ py "error" := VStr (py "text is required") ]} 400)
    | _ =>
        (match result (synthesize_to_mp3_bytes bi lib (request_args bi d)) with
         | Returned [] =>
             Returned (jsonify {[ py "error" := VStr (py "empty audio") ]} 500)
         | Returned audio =>
             Returned {| status := 200; mimetype := py "audio/mpeg"; body := RawBody audio |}
         | Raised exc =>
             Returned (jsonify {[ py "error" := VStr (exn_str exc) ]} 500)
         end,
         calls (synthesize_to_mp3_bytes bi lib (request_args bi d)))
    end.
Proof.
  intros Hd. unfold tts_api. rewrite (data_fields _ _ Hd).
  unfold str_field, dict_get. rewrite !bind_ret_l.
  change (Str.strip (py_str bi (default (VStr []) (d !! py "text"))))
    with (text (request_args bi d)).
  destruct (text (request_args bi d)) as [|c s] eqn:Ht; [done|].
  rewrite <- Ht.
  change (synthesize_to_mp3_bytes bi lib _)
    with (synthesize_to_mp3_bytes bi lib (request_args bi d)).
  destruct (synthesize_to_mp3_bytes bi lib (request_args bi d)) as [[[|b audio]|exc] t];
    unfold_M; simpl; by rewrite app_nil_r.
Qed.

Lemma json_field_singleton key v code :
  json_field (jsonify {[ key := v ]} code) key = Some v.
Proof. unfold json_field; simpl. apply lookup_singleton_eq. Qed.

(** Every client call of [tts_api] passes on the arguments read from the
    body. *)
Lemma tts_api_passes req d kw :
  body_fields (get_json req) = Some d ->
  CallCommunicate kw ∈ calls (tts_api bi lib req) ->
  passes (request_args bi d) kw.
Proof.
  intros Hd. rewrite (tts_api_closed _ _ Hd).
  destruct (text (request_args bi d)) as [|c s]; simpl.
  { intros H. by apply elem_of_nil in H. }
  destruct (synthesize_cases (request_args bi d)) as [[e ->]|(kw' & Hp & ->)]; simpl.
  - intros H. apply list_elem_of_singleton in H. discriminate.
  - intros H. apply elem_of_cons in H as [H|H]; [discriminate|].
    apply list_elem_of_singleton in H. by simplify_eq.
Qed.

(** *** POST /api/tts *)



(** C3: when the request carries a text and the synthesis call returns, a
    non-empty buffer is sent back as it is with content type [audio/mpeg],
    and an empty buffer is answered with status 500 and an [error] field. *)
Theorem tts_api_audio req d audio :
  body_fields (get_json req) = Some d ->
  text (request_args bi d) ≠ [] ->
  result (synthesize_to_mp3_bytes bi lib (request_args bi d)) = Returned audio ->
  (audio ≠ [] ->
   result (tts_api bi lib req)
   = Returned {| status := 200; mimetype := py "audio/mpeg"; body := RawBody audio |})
  /\ (audio = [] ->
      exists r, result (tts_api bi lib req) = Returned r
                /\ status r = 500%Z
                /\ json_field r (py "error") = Some (VStr (py "empty audio"))).
Proof.
  intros Hd Ht Ha. rewrite (tts_api_closed _ _ Hd).
  destruct (text (request_args bi d)); [done|]. rewrite Ha. split.
  - by destruct audio.
  - intros ->. eexists. split; [reflexivity|]. split; [reflexivity|].
    apply json_field_singleton.
Qed.

(** A body with fields never makes the handler raise. *)
Lemma tts_api_returns req d :
  body_fields (get_json req) = Some d ->
  exists r, result (tts_api bi lib req) = Returned r.
Proof.
  intros Hd. rewrite (tts_api_closed _ _ Hd).
  destruct (text (request_args bi d)); [by eexists|].
  destruct (result (synthesize_to_mp3_bytes _ _ _)) as [[|? ?]|?]; by eexists.
Qed.

(** A body that is neither falsy nor a dict has no [get]. *)
Lemma tts_api_no_fields req :
  body_fields (get_json req) = None ->
  exists e, tts_api bi lib req = raise e /\ exn_class e = py "AttributeError".
Proof.
  destruct req as [body]; simpl. unfold tts_api; simpl get_json.
  destruct body; simpl; intros H; repeat case_match; simplify_eq;
    by eexists.
Qed.

(** *** Defaults *)

Lemma tuning_cases key dflt :
  (key, dflt) ∈ tuning_defaults ->
  (key = py "voice" /\ dflt = DEFAULT_VOICE)
  \/ (key = py "rate" /\ dflt = DEFAULT_RATE)
  \/ (key = py "volume" /\ dflt = DEFAULT_VOLUME)
  \/ (key = py "pitch" /\ dflt = DEFAULT_PITCH).
Proof.
  unfold tuning_defaults. intros H.
  repeat (apply elem_of_cons in H as [H|H]; [inversion H; tauto|]).
  by apply elem_of_nil in H.
Qed.

(** Stripping leaves each default as it is, and none is empty. *)
Lemma tuning_default_strip key dflt :
  (key, dflt) ∈ tuning_defaults -> Str.strip dflt = dflt /\ dflt ≠ [].
Proof.
  intros H.
  destruct (tuning_cases _ _ H) as [[_ ->]|[[_ ->]|[[_ ->]|[_ ->]]]];
    by vm_compute.
Qed.

Lemma str_or_default d key dflt :
  (key, dflt) ∈ tuning_defaults -> absent_or_blank bi d key -> str_or bi d key dflt = dflt.
Proof.
  intros Hk Hd. destruct (tuning_default_strip _ _ Hk) as [Hs Hne].
  unfold str_or, absent_or_blank in *.
  destruct (d !! key) as [v|]; simpl.
  - by rewrite Hd.
  - rewrite Hs. by destruct dflt.
Qed.

Lemma default_passed d key dflt kw :
  (key, dflt) ∈ tuning_defaults ->
  absent_or_blank bi d key ->
  passes (request_args bi d) kw ->
  kw !! key = Some (KStr dflt).
Proof.
  intros Hk Hd (_ & Hv & Hr & Hvol & Hp).
  pose proof (str_or_default d _ _ Hk Hd) as Hs.
  destruct (tuning_cases _ _ Hk) as [[-> ->]|[[-> ->]|[[-> ->]|[-> ->]]]];
    simpl in *; congruence.
Qed.

(** C6: when [voice], [rate], [volume] or [pitch] is absent from the body,
    every call the handler makes to the synthesis client carries the default
    of that field: [zh-CN-XiaoxiaoNeural], [+0%], [+0%], [+0Hz]. *)
Theorem tts_api_defaults req d key dflt kw :
  body_fields (get_json req) = Some d ->
  (key, dflt) ∈ tuning_defaults ->
  d !! key = None ->
  CallCommunicate kw ∈ calls (tts_api bi lib req) ->
  kw !! key = Some (KStr dflt).
Proof.
  intros Hd Hk Hnone Hcall.
  apply (default_passed d); [done| |by eapply tts_api_passes].
  unfold absent_or_blank. by rewrite Hnone.
Qed.



(** *** The chunk loop *)

Lemma stream_step_concat chunks chunk :
  concat (stream_step chunks chunk)
  = concat chunks ++ (if is_audio chunk then chunk_data chunk else []).
Proof.
  unfold stream_step, is_audio, chunk_data.
  destruct (chunk !! py "type") as [[t|b|z|]|]; try by rewrite app_nil_r.
  destruct (decide (t = py "audio")) as [Ht|Ht].
  - rewrite (bool_decide_eq_true_2 _ Ht).
    destruct (chunk !! py "data") as [[s|[|b bs]|z|]|]; simpl;
      rewrite ?concat_app; simpl; by rewrite ?app_nil_r.
  - rewrite (bool_decide_eq_false_2 _ Ht). by rewrite app_nil_r.
Qed.

Lemma audio_of_stream_cons chunk stream :
  audio_of_stream (chunk :: stream)
  = (if is_audio chunk then chunk_data chunk else []) ++ audio_of_stream stream.
Proof. unfold audio_of_stream; simpl. by destruct (is_audio chunk). Qed.

(** The loop, started with [chunks] already collected, ends with their
    bytes followed by the audio of the stream. *)
Lemma stream_loop stream : forall chunks,
  concat (fold_left stream_step stream chunks) = concat chunks ++ audio_of_stream stream.
Proof.
  induction stream as [|chunk stream IH]; intros chunks; simpl.
  - by rewrite app_nil_r.
  - rewrite IH, stream_step_concat, audio_of_stream_cons. by rewrite app_assoc.
Qed.

(** C7: the bytes a successful synthesis returns are the data of the
    streamed chunks of type [audio], joined in stream order; the stream is
    the one of the single client call the synthesis makes, and chunks of any
    other type add nothing. *)
Theorem synthesize_audio_of_stream a audio :
  result (synthesize_to_mp3_bytes bi lib a) = Returned audio ->
  exists kw stream,
    calls (synthesize_to_mp3_bytes bi lib a) = [CallSynthesize a; CallCommunicate kw]
    /\ Communicate lib kw = (stream, None)
    /\ audio = audio_of_stream stream.
Proof.
  destruct (synthesize_cases a) as [[e ->]|(kw & _ & ->)]; simpl; [discriminate|].
  destruct (Communicate lib kw) as [stream [exc|]] eqn:Hs; [discriminate|].
  intros [= <-]. exists kw, stream. split; [reflexivity|]. split; [exact Hs|].
  apply (stream_loop stream []).
Qed.

(** *** GET /api/voices and GET /api/health *)

Lemma voices_api_closed req :
  voices_api lib req
  = (match result (fetch_voices lib) with
     | Returned voices =>
         Returned (jsonify (list_to_map [(py "ok", VBool true); (py "fallback", VBool false);
                                         (py "voices", voices)]) 200)
     | Raised exc =>
         Returned (jsonify (list_to_map [(py "ok", VBool false); (py "fallback", VBool true);
                                         (py "error", VStr (exn_str exc));
                                         (py "voices", VList FALLBACK_VOICES)]) 200)
     end,
     calls (fetch_voices lib)).
Proof.
  unfold voices_api. destruct (fetch_voices lib) as [[voices|exc] t];
    unfold_M; simpl; by rewrite app_nil_r.
Qed.




(** C8: [GET /api/health] answers every request with the JSON body
    [{"ok": true}], and does nothing else. *)
Theorem health_ok req :
  exists r,
    health req = (Returned r, [])
    /\ status r = 200%Z
    /\ body r = JsonBody (VDict {[ py "ok" := VBool true ]}).
Proof. by eexists. Qed.

(** C10: [build_boundary_option] returns [None] exactly when both flags are
    false; the sentence flag alone gives [SentenceBoundary], the word flag
    alone gives [WordBoundary], and both give the two names joined by a
    comma, [SentenceBoundary] first. *)
Theorem build_boundary_option_cases :
  (forall word_boundary sentence_boundary,
     build_boundary_option word_boundary sentence_boundary = None
     <-> word_boundary = false /\ sentence_boundary = false)
  /\ build_boundary_option false true = Some (py "SentenceBoundary")
  /\ build_boundary_option true false = Some (py "WordBoundary")
  /\ build_boundary_option true true = Some (py "SentenceBoundary,WordBoundary").
Proof.
  split; [|by repeat split].
  intros [] []; (split; [intros H|intros [H1 H2]]); by try discriminate.
Qed.

End Properties.

(** * The theorems at sample requests *)



Lemma tts_api_audio_witness :
  result (tts_api sample_builtins sample_lib (body_of [(py "text", VStr (py "hi"))]))
  = Returned {| status := 200; mimetype := py "audio/mpeg";
                body := RawBody [x01; x02; x03] |}.
Proof.
  apply (tts_api_audio sample_builtins sample_lib
           (body_of [(py "text", VStr (py "hi"))])
           (list_to_map [(py "text", VStr (py "hi"))])
           [x01; x02; x03]).
  - reflexivity.
  - vm_compute. discriminate.
  - vm_compute. reflexivity.
  - discriminate.
Defined.

Lemma tts_api_defaults_witness :
  exists kw,
    CallCommunicate kw
    ∈ calls (tts_api sample_builtins sample_lib (body_of [(py "text", VStr (py "hi"))]))
    /\ kw !! py "pitch" = Some (KStr (py "+0Hz")).
Proof.
  exists (list_to_map [(py "text", KStr (py "hi")); (py "voice", KStr DEFAULT_VOICE);
                       (py "rate", KStr DEFAULT_RATE); (py "volume", KStr DEFAULT_VOLUME);
                       (py "pitch", KStr DEFAULT_PITCH)]).
  assert (Hcall : CallCommunicate
                    (list_to_map [(py "text", KStr (py "hi")); (py "voice", KStr DEFAULT_VOICE);
                                  (py "rate", KStr DEFAULT_RATE);
                                  (py "volume", KStr DEFAULT_VOLUME);
                                  (py "pitch", KStr DEFAULT_PITCH)])
                  ∈ calls (tts_api sample_builtins sample_lib
                             (body_of [(py "text", VStr (py "hi"))]))).
  { apply list_elem_of_further, list_elem_of_here. }
  split; [exact Hcall|].
  apply (tts_api_defaults sample_builtins sample_lib
           (body_of [(py "text", VStr (py "hi"))])
           (list_to_map [(py "text", VStr (py "hi"))])
           (py "pitch") (py "+0Hz") _).
  - reflexivity.
  - do 3 apply list_elem_of_further. apply list_elem_of_here.
  - vm_compute. reflexivity.
  - exact Hcall.
Defined.


Lemma synthesize_audio_of_stream_witness :
  exists kw stream,
    calls (synthesize_to_mp3_bytes sample_builtins sample_lib
             (request_args sample_builtins (list_to_map [(py "text", VStr (py "hi"))])))
    = [CallSynthesize (request_args sample_builtins (list_to_map [(py "text", VStr (py "hi"))]));
       CallCommunicate kw]
    /\ Communicate sample_lib kw = (stream, None)
    /\ [x01; x02; x03] = audio_of_stream stream.
Proof.
  apply (synthesize_audio_of_stream sample_builtins sample_lib).
  vm_compute. reflexivity.
Defined.




(** The response in question: [ok] is true and [voices] is the empty list. *)
Example voices_api_empty_response :
  exists r,
    result (voices_api silent_lib (Request VNone)) = Returned r
    /\ json_field r (py "ok") = Some (VBool true)
    /\ json_field r (py "voices") = Some (VList []).
Proof. eexists. split; [reflexivity|]. split; vm_compute; reflexivity. Qed.

(** A JSON array as body: the handler raises before it answers. *)
Example tts_api_array_body :
  result (tts_api sample_builtins sample_lib (Request (VList [VInt 1])))
  = Raised (Exception (py "AttributeError") (py "'list' object has no attribute 'get'")).
Proof. reflexivity. Qed.

(** * Further properties of the handlers *)

Module StripFacts.
Import Str.

Lemma lstrip_split s : exists pre, s = pre ++ lstrip s /\ blank pre = true.
Proof.
  induction s as [|c rest (pre & Hs & Hb)]; [by exists []|]. simpl.
  destruct (is_space c) eqn:Hc.
  - exists (c :: pre). split; [simpl; congruence|]. simpl. by rewrite Hc.
  - by exists [].
Qed.

Lemma lstrip_head s c t : lstrip s = c :: t -> is_space c = false.
Proof.
  induction s as [|c' rest IH]; simpl; [discriminate|].
  destruct (is_space c') eqn:Hc; [exact IH|]. congruence.
Qed.

Lemma rstrip_split s : exists post, s = rstrip s ++ post /\ blank post = true.
Proof.
  unfold rstrip. destruct (lstrip_split (rev s)) as (pre & Hs & Hb).
  exists (rev pre). split.
  - apply (f_equal (@rev N)) in Hs. by rewrite rev_involutive, rev_app_distr in Hs.
  - by rewrite StrFacts.blank_rev.
Qed.

Lemma rstrip_last s c : last (rstrip s) = Some c -> is_space c = false.
Proof.
  unfold rstrip. destruct (lstrip (rev s)) as [|c' t] eqn:H; [discriminate|].
  simpl. rewrite last_snoc. intros [= <-]. by eapply lstrip_head.
Qed.

(** [strip] cuts a blank prefix and a blank suffix off the string. *)
Lemma strip_split s :
  exists pre post, s = pre ++ strip s ++ post /\ blank pre = true /\ blank post = true.
Proof.
  unfold strip. destruct (lstrip_split s) as (pre & Hs & Hpre).
  destruct (rstrip_split (lstrip s)) as (post & Hl & Hpost).
  exists pre, post. split; [|done]. by rewrite <- Hl.
Qed.

(** What [strip] leaves neither starts nor ends with whitespace. *)
Lemma strip_ends s c :
  (head (strip s) = Some c -> is_space c = false)
  /\ (last (strip s) = Some c -> is_space c = false).
Proof.
  split; [|apply rstrip_last]. unfold strip.
  destruct (rstrip_split (lstrip s)) as (post & Hl & _).
  destruct (rstrip (lstrip s)) as [|c' t]; [discriminate|].
  simpl. intros [= <-]. by eapply lstrip_head.
Qed.

Lemma strip_not_blank s : blank s = false -> strip s <> [].
Proof.
  intros Hb Hs. apply StrFacts.strip_nil_blank in Hs. congruence.
Qed.

End StripFacts.

Section Handlers.

Variable bi : builtins.
Variable lib : edge_tts.

(** *** The keyword arguments, exactly *)

Lemma set_timeout_float_arg key v kw :
  set_timeout bi key v kw
  = lift (match float_arg bi v with
          | Returned (Some f) => Returned (<[key := KFloat f]> kw)
          | Returned None => Returned kw
          | Raised e => Raised e
          end).
Proof.
  unfold set_timeout, float_arg.
  destruct v; try done; rewrite bind_lift; by destruct (py_float bi _).
Qed.

(** [synthesize_to_mp3_bytes] in closed form: it stops at the first timeout
    that [float] rejects, and otherwise calls the client once with
    [kwargs_of] and ends as the stream ends. *)
Lemma synthesize_closed a :
  synthesize_to_mp3_bytes bi lib a
  = match float_arg bi (connect_timeout a), float_arg bi (receive_timeout a) with
    | Returned ct, Returned rt =>
        (match Communicate lib (kwargs_of a ct rt) with
         | (_, Some exc) => Raised exc
         | (stream, None) => Returned (audio_of_stream stream)
         end,
         [CallSynthesize a; CallCommunicate (kwargs_of a ct rt)])
    | Raised e, _ | Returned _, Raised e => (Raised e, [CallSynthesize a])
    end.
Proof.
  unfold synthesize_to_mp3_bytes. rewrite bind_call.
  rewrite set_timeout_float_arg, bind_lift.
  destruct (float_arg bi (connect_timeout a)) as [ct|e]; [|done].
  assert (Hk : forall (kw : gmap pystr kwarg) rt,
    (kwargs ← lift (match rt with
                    | Returned (Some f) => Returned (<[py "receive_timeout" := KFloat f]> kw)
                    | Returned None => Returned kw
                    | Raised e => Raised e
                    end);
     _ ← call (CallCommunicate kwargs);
     let '(stream, failure) := Communicate lib kwargs in
     let chunks := fold_left stream_step stream [] in
     match failure with
     | Some exc => raise exc
     | None => mret (concat chunks)
     end)
    = match rt with
      | Returned rt' =>
          let kw' := match rt' with
                     | Some f => <[py "receive_timeout" := KFloat f]> kw
                     | None => kw
                     end in
          (match Communicate lib kw' with
           | (_, Some exc) => Raised exc
           | (stream, None) => Returned (audio_of_stream stream)
           end, [CallCommunicate kw'])
      | Raised e => raise e
      end).
  { intros kw [[f|]|e]; rewrite bind_lift; try done;
      rewrite bind_call; simpl;
      destruct (Communicate lib _) as [stream [exc|]]; simpl; try done;
      by rewrite (stream_loop stream []). }
  destruct ct as [f|]; rewrite set_timeout_float_arg, Hk;
    by destruct (float_arg bi (receive_timeout a)) as [rt|e].
Qed.

(** [tts_api] on a body with fields and a text, in closed form down to the
    client call. *)
Lemma tts_api_exact req d :
  body_fields (get_json req) = Some d ->
  text (request_args bi d) <> [] ->
  tts_api bi lib req
  = match float_arg bi (connect_timeout (request_args bi d)),
          float_arg bi (receive_timeout (request_args bi d)) with
    | Returned ct, Returned rt =>
        (Returned
           match Communicate lib (kwargs_of (request_args bi d) ct rt) with
           | (_, Some exc) => error_response (exn_str exc) 500
           | (stream, None) =>
               match audio_of_stream stream with
               | [] => error_response (py "empty audio") 500
               | audio => audio_response audio
               end
           end,
         [CallSynthesize (request_args bi d);
          CallCommunicate (kwargs_of (request_args bi d) ct rt)])
    | Raised e, _ | Returned _, Raised e =>
        (Returned (error_response (exn_str e) 500), [CallSynthesize (request_args bi d)])
    end.
Proof.
  intros Hd Ht. rewrite (tts_api_closed bi lib _ _ Hd), synthesize_closed.
  destruct (text (request_args bi d)); [done|].
  destruct (float_arg bi (connect_timeout _)) as [ct|e]; [|done].
  destruct (float_arg bi (receive_timeout _)) as [rt|e]; [|done].
  simpl. destruct (Communicate lib _) as [stream [exc|]]; [done|].
  by destruct (audio_of_stream stream).
Qed.

(** A client call in the trace of [tts_api] pins down the whole run. *)
Lemma tts_api_call_inv req d kw :
  body_fields (get_json req) = Some d ->
  CallCommunicate kw ∈ calls (tts_api bi lib req) ->
  text (request_args bi d) <> []
  /\ exists ct rt,
      float_arg bi (connect_timeout (request_args bi d)) = Returned ct
      /\ float_arg bi (receive_timeout (request_args bi d)) = Returned rt
      /\ kw = kwargs_of (request_args bi d) ct rt
      /\ tts_api bi lib req
         = (Returned
              match Communicate lib kw with
              | (_, Some exc) => error_response (exn_str exc) 500
              | (stream, None) =>
                  match audio_of_stream stream with
                  | [] => error_response (py "empty audio") 500
                  | audio => audio_response audio
                  end
              end,
            [CallSynthesize (request_args bi d); CallCommunicate kw]).
Proof.
  intros Hd Hin.
  assert (Ht : text (request_args bi d) <> []).
  { intros Ht. rewrite (tts_api_closed bi lib _ _ Hd), Ht in Hin.
    by apply elem_of_nil in Hin. }
  split; [done|]. rewrite (tts_api_exact _ _ Hd Ht) in Hin |- *.
  destruct (float_arg bi (connect_timeout _)) as [ct|e];
    [destruct (float_arg bi (receive_timeout _)) as [rt|e]|]; simpl in Hin;
    try (apply list_elem_of_singleton in Hin; discriminate).
  apply elem_of_cons in Hin as [Hin|Hin]; [discriminate|].
  apply list_elem_of_singleton in Hin. injection Hin as ->.
  by exists ct, rt.
Qed.

(** *** What reaches the client *)

Lemma set_truthy_lookup key o kw :
  set_truthy key o kw !! key
  = match o with Some ((_ :: _) as s) => Some (KStr s) | _ => kw !! key end.
Proof. destruct o as [[|c s]|]; simpl; try done. apply lookup_insert_eq. Qed.

Lemma set_truthy_lookup_ne key o kw k :
  key <> k -> set_truthy key o kw !! k = kw !! k.
Proof. intros Hk. destruct o as [[|c s]|]; simpl; try done. by apply lookup_insert_ne. Qed.

Lemma set_float_lookup key o kw :
  set_float key o kw !! key = match o with Some f => Some (KFloat f) | None => kw !! key end.
Proof. destruct o; simpl; [apply lookup_insert_eq|done]. Qed.

Lemma set_float_lookup_ne key o kw k :
  key <> k -> set_float key o kw !! k = kw !! k.
Proof. intros Hk. destruct o; simpl; [by apply lookup_insert_ne|done]. Qed.

Lemma set_truthy_is_Some key o kw k :
  is_Some (set_truthy key o kw !! k) -> k = key \/ is_Some (kw !! k).
Proof.
  destruct (decide (key = k)) as [->|Hk]; [by left|].
  rewrite set_truthy_lookup_ne by done. by right.
Qed.

Lemma set_float_is_Some key o kw k :
  is_Some (set_float key o kw !! k) -> k = key \/ is_Some (kw !! k).
Proof.
  destruct (decide (key = k)) as [->|Hk]; [by left|].
  rewrite set_float_lookup_ne by done. by right.
Qed.

Ltac in_list :=
  repeat first [apply list_elem_of_here | apply list_elem_of_further].

Ltac kwargs_lookup :=
  unfold kwargs_of;
  repeat first
    [ rewrite set_float_lookup_ne by done
    | rewrite set_truthy_lookup_ne by done
    | rewrite set_float_lookup
    | rewrite set_truthy_lookup ].

(** X1: the [boundary] keyword is the option [build_boundary_option] builds from
    the truthiness of the two flags, and is left out when it builds none. *)
Theorem tts_api_boundary_kwarg req d kw :
  body_fields (get_json req) = Some d ->
  CallCommunicate kw ∈ calls (tts_api bi lib req) ->
  kw !! py "boundary"
  = KStr <$> build_boundary_option
               (truthy (default (VBool false) (d !! py "word_boundary")))
               (truthy (default (VBool false) (d !! py "sentence_boundary"))).
Proof.
  intros Hd Hin. destruct (tts_api_call_inv _ _ _ Hd Hin) as (_ & ct & rt & _ & _ & -> & _).
  kwargs_lookup. simpl.
  by destruct (truthy (default (VBool false) (d !! py "word_boundary"))),
              (truthy (default (VBool false) (d !! py "sentence_boundary"))).
Qed.

(** X2: the [proxy] keyword is the body's proxy with its surrounding whitespace
    removed when that is a string with something in it; a blank string, a
    value that is not a string or no proxy at all passes no [proxy]. *)
Theorem tts_api_proxy_kwarg req d kw :
  body_fields (get_json req) = Some d ->
  CallCommunicate kw ∈ calls (tts_api bi lib req) ->
  kw !! py "proxy"
  = match d !! py "proxy" with
    | Some (VStr p) => if Str.blank p then None else Some (KStr (Str.strip p))
    | _ => None
    end.
Proof.
  intros Hd Hin. destruct (tts_api_call_inv _ _ _ Hd Hin) as (_ & ct & rt & _ & _ & -> & _).
  kwargs_lookup. simpl.
  destruct (d !! py "proxy") as [[| | | |p| |]|]; simpl; try done.
  destruct (Str.blank p) eqn:Hb.
  - by rewrite (StrFacts.strip_blank _ Hb).
  - pose proof (StripFacts.strip_not_blank _ Hb). by destruct (Str.strip p).
Qed.

(** X3: a timeout reaches the client as [float] of the body's value, and is left
    out when the body has none or has [null]. *)
Theorem tts_api_timeout_kwargs req d kw :
  body_fields (get_json req) = Some d ->
  CallCommunicate kw ∈ calls (tts_api bi lib req) ->
  exists ct rt,
    float_arg bi (default VNone (d !! py "connect_timeout")) = Returned ct
    /\ float_arg bi (default VNone (d !! py "receive_timeout")) = Returned rt
    /\ kw !! py "connect_timeout" = KFloat <$> ct
    /\ kw !! py "receive_timeout" = KFloat <$> rt.
Proof.
  intros Hd Hin. destruct (tts_api_call_inv _ _ _ Hd Hin) as (_ & ct & rt & Hc & Hr & -> & _).
  exists ct, rt. split; [exact Hc|]. split; [exact Hr|].
  split; kwargs_lookup; [by destruct ct|by destruct rt].
Qed.

(** X4: a timeout that [float] rejects is answered with status 500 and the text
    of the exception, and the client is never called. *)
Theorem tts_api_timeout_rejected req d e :
  body_fields (get_json req) = Some d ->
  text (request_args bi d) <> [] ->
  float_arg bi (default VNone (d !! py "connect_timeout")) = Raised e
  \/ ((exists ct, float_arg bi (default VNone (d !! py "connect_timeout")) = Returned ct)
      /\ float_arg bi (default VNone (d !! py "receive_timeout")) = Raised e) ->
  tts_api bi lib req
  = (Returned (error_response (exn_str e) 500), [CallSynthesize (request_args bi d)]).
Proof.
  intros Hd Ht H. rewrite (tts_api_exact _ _ Hd Ht). simpl.
  by destruct H as [->|[[ct ->] ->]].
Qed.

(** X5: the client is given the five string arguments, and beyond them nothing
    but [boundary], [proxy] and the two timeouts. *)
Theorem tts_api_kwarg_names req d kw :
  body_fields (get_json req) = Some d ->
  CallCommunicate kw ∈ calls (tts_api bi lib req) ->
  (forall k, is_Some (kw !! k) -> k ∈ kwarg_names)
  /\ (forall k, k ∈ [py "text"; py "voice"; py "rate"; py "volume"; py "pitch"] ->
                exists s, kw !! k = Some (KStr s)).
Proof.
  intros Hd Hin. destruct (tts_api_call_inv _ _ _ Hd Hin) as (_ & ct & rt & _ & _ & -> & _).
  split.
  - intros k Hk. unfold kwargs_of in Hk.
    apply set_float_is_Some in Hk as [->|Hk]; [in_list|].
    apply set_float_is_Some in Hk as [->|Hk]; [in_list|].
    apply set_truthy_is_Some in Hk as [->|Hk]; [in_list|].
    apply set_truthy_is_Some in Hk as [->|Hk]; [in_list|].
    simpl in Hk.
    repeat (apply lookup_insert_is_Some in Hk as [<-|[_ Hk]]; [in_list|]).
    rewrite lookup_empty in Hk. by destruct Hk.
  - intros k Hk.
    repeat (apply elem_of_cons in Hk as [->|Hk];
            [kwargs_lookup; eexists; by simplify_map_eq|]).
    by apply elem_of_nil in Hk.
Qed.

(** X6: the text that reaches the client is the body's text without the
    whitespace around it: what was cut off on either side is blank, and what
    is left is not empty and neither starts nor ends with whitespace. *)
Theorem tts_api_text_stripped req d s kw :
  body_fields (get_json req) = Some d ->
  d !! py "text" = Some (VStr s) ->
  CallCommunicate kw ∈ calls (tts_api bi lib req) ->
  exists t pre post c c',
    kw !! py "text" = Some (KStr t)
    /\ s = pre ++ t ++ post
    /\ Str.blank pre = true /\ Str.blank post = true
    /\ head t = Some c /\ Str.is_space c = false
    /\ last t = Some c' /\ Str.is_space c' = false.
Proof.
  intros Hd Hs Hin.
  destruct (tts_api_call_inv _ _ _ Hd Hin) as (Ht & ct & rt & _ & _ & -> & _).
  simpl in Ht. rewrite Hs in Ht; simpl in Ht.
  destruct (StripFacts.strip_split s) as (pre & post & Hsplit & Hpre & Hpost).
  destruct (head (Str.strip s)) as [c|] eqn:Hhd; [|by destruct (Str.strip s)].
  destruct (last (Str.strip s)) as [c'|] eqn:Hlast;
    [|by apply last_None in Hlast].
  exists (Str.strip s), pre, post, c, c'.
  split; [kwargs_lookup; simpl; by rewrite Hs|].
  destruct (StripFacts.strip_ends s c) as [Hc _].
  destruct (StripFacts.strip_ends s c') as [_ Hc'].
  repeat split; auto.
Qed.

(** X7: a [voice], [rate], [volume] or [pitch] with something left of it after
    stripping reaches the client as that, stripped. *)
Theorem tts_api_given_field req d key dflt v kw :
  body_fields (get_json req) = Some d ->
  (key, dflt) ∈ tuning_defaults ->
  d !! key = Some v ->
  Str.strip (py_str bi v) <> [] ->
  CallCommunicate kw ∈ calls (tts_api bi lib req) ->
  kw !! key = Some (KStr (Str.strip (py_str bi v))).
Proof.
  intros Hd Hk Hv Hne Hin.
  destruct (tts_api_passes bi lib _ _ _ Hd Hin) as (_ & Hvoice & Hrate & Hvol & Hpitch).
  assert (Hs : str_or bi d key dflt = Str.strip (py_str bi v)).
  { unfold str_or. rewrite Hv; simpl. by destruct (Str.strip (py_str bi v)). }
  destruct (tuning_cases _ _ Hk) as [[-> ->]|[[-> ->]|[[-> ->]|[-> ->]]]];
    simpl in *; congruence.
Qed.

(** X8: a [text] that is [null], [true] or [false] is not taken as missing: the
    handler goes on to synthesize the word [None], [True] or [False]. *)
Theorem tts_api_null_text req d v :
  body_fields (get_json req) = Some d ->
  d !! py "text" = Some v ->
  v = VNone \/ (exists b, v = VBool b) ->
  text (request_args bi d) = py_str bi v
  /\ exists rest, calls (tts_api bi lib req) = CallSynthesize (request_args bi d) :: rest.
Proof.
  intros Hd Hv Hnull.
  assert (Ht : text (request_args bi d) = py_str bi v).
  { simpl. rewrite Hv; simpl. by destruct Hnull as [->|[[] ->]]. }
  split; [done|].
  rewrite (tts_api_exact _ _ Hd).
  - destruct (float_arg bi (connect_timeout _)) as [ct|e];
      [destruct (float_arg bi (receive_timeout _)) as [rt|e]|]; by eexists.
  - rewrite Ht. by destruct Hnull as [->|[[] ->]].
Qed.

(** X9: two bodies that agree on the ten fields the handler reads are handled
    alike: any other field is ignored. *)
Theorem tts_api_other_fields_ignored d d' :
  Forall (fun k => d !! k = d' !! k) body_keys ->
  tts_api bi lib (Request (VDict d)) = tts_api bi lib (Request (VDict d')).
Proof.
  intros H. unfold body_keys in H.
  repeat (apply Forall_cons in H as [? H]).
  rewrite (tts_api_closed bi lib (Request (VDict d)) d) by done.
  rewrite (tts_api_closed bi lib (Request (VDict d')) d') by done.
  assert (Ha : request_args bi d = request_args bi d').
  { unfold request_args, str_or.
    repeat match goal with Heq : d !! _ = d' !! _ |- _ => rewrite Heq; clear Heq end.
    reflexivity. }
  by rewrite Ha.
Qed.

(** *** The shape of a run *)

(** X10: a request enters the synthesis routine at most once, and the routine
    calls the client at most once: nothing is ever tried a second time. *)
Theorem tts_api_single_attempt req :
  calls (tts_api bi lib req) = []
  \/ (exists a, calls (tts_api bi lib req) = [CallSynthesize a])
  \/ (exists a kw, calls (tts_api bi lib req) = [CallSynthesize a; CallCommunicate kw]).
Proof.
  destruct (body_fields (get_json req)) as [d|] eqn:Hd.
  - destruct (text (request_args bi d)) as [|c t] eqn:Ht.
    + left. by rewrite (tts_api_closed bi lib _ _ Hd), Ht.
    + right. rewrite (tts_api_exact _ _ Hd) by congruence.
      destruct (float_arg bi (connect_timeout _)) as [ct|e];
        [destruct (float_arg bi (receive_timeout _)) as [rt|e]|];
        [right|left|left]; by repeat eexists.
  - left. by destruct (tts_api_no_fields bi lib _ Hd) as (e & -> & _).
Qed.

(** X11: a body that is truthy and is not a dict makes the handler raise
    [AttributeError] at its first [get], before anything is called. *)
Theorem tts_api_not_a_dict req :
  truthy (get_json req) = true ->
  (forall d, get_json req <> VDict d) ->
  tts_api bi lib req
  = raise (Exception (py "AttributeError")
             (py "'" ++ type_name (get_json req) ++ py "' object has no attribute 'get'")).
Proof.
  destruct req as [body]; simpl. intros Ht Hnd.
  unfold tts_api; simpl get_json. rewrite Ht.
  destruct body; try done. by destruct (Hnd d).
Qed.


(** X13: when the stream ends normally, the answer is the audio of the stream, or
    status 500 with [empty audio] when the stream carried none. *)
Theorem tts_api_stream_end req d kw stream :
  body_fields (get_json req) = Some d ->
  CallCommunicate kw ∈ calls (tts_api bi lib req) ->
  Communicate lib kw = (stream, None) ->
  result (tts_api bi lib req)
  = Returned match audio_of_stream stream with
             | [] => error_response (py "empty audio") 500
             | audio => audio_response audio
             end.
Proof.
  intros Hd Hin Hs.
  destruct (tts_api_call_inv _ _ _ Hd Hin) as (_ & ct & rt & _ & _ & _ & ->).
  by rewrite Hs.
Qed.


(** *** The chunk loop *)

(** X15: the loop never collects an empty piece, and collects at most one piece
    per chunk. *)
Theorem stream_step_collects stream : forall chunks,
  Forall (fun piece => piece <> []) chunks ->
  Forall (fun piece => piece <> []) (fold_left stream_step stream chunks)
  /\ length (fold_left stream_step stream chunks) <= length chunks + length stream.
Proof.
  induction stream as [|chunk stream IH]; intros chunks Hc; simpl.
  - split; [done|lia].
  - assert (Hstep : Forall (fun piece => piece <> []) (stream_step chunks chunk)
                    /\ length (stream_step chunks chunk) <= S (length chunks)).
    { unfold stream_step. repeat case_match; subst; try (split; [done|lia]).
      split; [|rewrite length_app; simpl; lia].
      apply Forall_app. split; [done|]. by apply Forall_singleton. }
    destruct Hstep as [Hf Hl]. destruct (IH _ Hf) as [IH1 IH2]. split; [done|lia].
Qed.

(** *** GET /api/voices *)


(** X17: one request makes exactly one fetch: [list_voices] when the library has
    it, the voices manager otherwise, never both. *)
Theorem voices_api_single_fetch req :
  calls (voices_api lib req)
  = [if has_list_voices lib then CallListVoices else CallVoicesManager].
Proof.
  rewrite voices_api_closed. unfold fetch_voices, run_async.
  destruct (has_list_voices lib); rewrite bind_call; [done|].
  rewrite bind_lift. by destruct (VoicesManager_create lib).
Qed.

(** X18: what [list_voices] returns is sent back as it is, with [ok] true and
    [fallback] false, and the voices manager is not touched. *)
Theorem voices_api_real_list req voices :
  has_list_voices lib = true ->
  list_voices lib = Returned voices ->
  voices_api lib req
  = (Returned (jsonify (list_to_map [(py "ok", VBool true); (py "fallback", VBool false);
                                     (py "voices", voices)]) 200),
     [CallListVoices]).
Proof.
  intros Hh Hl. rewrite voices_api_closed. unfold fetch_voices.
  rewrite Hh, bind_call, Hl. reflexivity.
Qed.

(** X19: without [list_voices], the list is the [voices] attribute of the
    manager, and the empty list when the manager has no such attribute or a
    falsy one. *)
Theorem voices_api_manager req manager :
  has_list_voices lib = false ->
  VoicesManager_create lib = Returned manager ->
  exists r,
    result (voices_api lib req) = Returned r
    /\ json_field r (py "ok") = Some (VBool true)
    /\ json_field r (py "voices")
       = Some match manager with
              | Some voices => if truthy voices then voices else VList []
              | None => VList []
              end.
Proof.
  intros Hh Hm. rewrite voices_api_closed. unfold fetch_voices, run_async.
  rewrite Hh, bind_call, Hm, bind_lift; simpl.
  eexists. split; [reflexivity|]. unfold json_field; simpl.
  split; [by simplify_map_eq|].
  destruct manager as [voices|]; simpl; by simplify_map_eq.
Qed.

End Handlers.

(** * The further properties at sample requests *)

Lemma sample_call :
  CallCommunicate sample_kwargs
  ∈ calls (tts_api sample_builtins sample_lib (Request (VDict sample_dict))).
Proof. apply list_elem_of_further, list_elem_of_here. Qed.

Lemma tts_api_boundary_kwarg_witness :
  sample_kwargs !! py "boundary" = Some (KStr (py "WordBoundary")).
Proof.
  apply (tts_api_boundary_kwarg sample_builtins sample_lib
           (Request (VDict sample_dict)) sample_dict sample_kwargs).
  - reflexivity.
  - exact sample_call.
Defined.

Lemma tts_api_proxy_kwarg_witness :
  sample_kwargs !! py "proxy" = Some (KStr (py "http://127.0.0.1:8080")).
Proof.
  apply (tts_api_proxy_kwarg sample_builtins sample_lib
           (Request (VDict sample_dict)) sample_dict sample_kwargs).
  - reflexivity.
  - exact sample_call.
Defined.

Lemma tts_api_timeout_kwargs_witness :
  exists ct rt,
    float_arg sample_builtins (default VNone (sample_dict !! py "connect_timeout")) = Returned ct
    /\ float_arg sample_builtins (default VNone (sample_dict !! py "receive_timeout")) = Returned rt
    /\ sample_kwargs !! py "connect_timeout" = KFloat <$> ct
    /\ sample_kwargs !! py "receive_timeout" = KFloat <$> rt.
Proof.
  apply (tts_api_timeout_kwargs sample_builtins sample_lib
           (Request (VDict sample_dict)) sample_dict sample_kwargs).
  - reflexivity.
  - exact sample_call.
Defined.

Lemma tts_api_timeout_rejected_witness :
  result (tts_api sample_builtins sample_lib
            (body_of [(py "text", VStr (py "hi")); (py "connect_timeout", VStr (py "soon"))]))
  = Returned (error_response (py "float() argument must be a string or a real number") 500).
Proof.
  refine (f_equal fst
            (tts_api_timeout_rejected sample_builtins sample_lib
               (body_of [(py "text", VStr (py "hi")); (py "connect_timeout", VStr (py "soon"))])
               (list_to_map [(py "text", VStr (py "hi"));
                             (py "connect_timeout", VStr (py "soon"))])
               (Exception (py "TypeError")
                  (py "float() argument must be a string or a real number")) _ _ _)).
  - reflexivity.
  - vm_compute. discriminate.
  - left. vm_compute. reflexivity.
Defined.

Lemma tts_api_kwarg_names_witness :
  (forall k, is_Some (sample_kwargs !! k) -> k ∈ kwarg_names)
  /\ (forall k, k ∈ [py "text"; py "voice"; py "rate"; py "volume"; py "pitch"] ->
                exists s, sample_kwargs !! k = Some (KStr s)).
Proof.
  apply (tts_api_kwarg_names sample_builtins sample_lib
           (Request (VDict sample_dict)) sample_dict sample_kwargs).
  - reflexivity.
  - exact sample_call.
Defined.

Lemma tts_api_text_stripped_witness :
  exists t pre post c c',
    sample_kwargs !! py "text" = Some (KStr t)
    /\ py " hi " = pre ++ t ++ post
    /\ Str.blank pre = true /\ Str.blank post = true
    /\ head t = Some c /\ Str.is_space c = false
    /\ last t = Some c' /\ Str.is_space c' = false.
Proof.
  apply (tts_api_text_stripped sample_builtins sample_lib
           (Request (VDict sample_dict)) sample_dict (py " hi ") sample_kwargs).
  - reflexivity.
  - vm_compute. reflexivity.
  - exact sample_call.
Defined.

Lemma tts_api_given_field_witness :
  sample_kwargs !! py "voice" = Some (KStr (py "en-US-AriaNeural")).
Proof.
  apply (tts_api_given_field sample_builtins sample_lib
           (Request (VDict sample_dict)) sample_dict
           (py "voice") DEFAULT_VOICE (VStr (py " en-US-AriaNeural ")) sample_kwargs).
  - reflexivity.
  - apply list_elem_of_here.
  - vm_compute. reflexivity.
  - vm_compute. discriminate.
  - exact sample_call.
Defined.

Lemma tts_api_null_text_witness :
  text (request_args sample_builtins {[ py "text" := VNone ]}) = py "None"
  /\ exists rest,
      calls (tts_api sample_builtins sample_lib (Request (VDict {[ py "text" := VNone ]})))
      = CallSynthesize (request_args sample_builtins {[ py "text" := VNone ]}) :: rest.
Proof.
  apply (tts_api_null_text sample_builtins sample_lib
           (Request (VDict {[ py "text" := VNone ]})) {[ py "text" := VNone ]} VNone).
  - reflexivity.
  - vm_compute. reflexivity.
  - by left.
Defined.

Lemma tts_api_other_fields_ignored_witness :
  tts_api sample_builtins sample_lib
    (Request (VDict (list_to_map [(py "text", VStr (py "hi"))])))
  = tts_api sample_builtins sample_lib
      (Request (VDict (list_to_map [(py "text", VStr (py "hi"));
                                    (py "format", VStr (py "wav"))]))).
Proof.
  apply (tts_api_other_fields_ignored sample_builtins sample_lib).
  unfold body_keys. repeat (constructor; [vm_compute; reflexivity|]). constructor.
Defined.

Lemma tts_api_not_a_dict_witness :
  tts_api sample_builtins sample_lib (Request (VList [VInt 1]))
  = raise (Exception (py "AttributeError") (py "'list' object has no attribute 'get'")).
Proof.
  apply (tts_api_not_a_dict sample_builtins sample_lib (Request (VList [VInt 1]))).
  - reflexivity.
  - discriminate.
Defined.


Lemma tts_api_stream_end_witness :
  result (tts_api sample_builtins sample_lib (Request (VDict sample_dict)))
  = Returned (audio_response [x01; x02; x03]).
Proof.
  apply (tts_api_stream_end sample_builtins sample_lib
           (Request (VDict sample_dict)) sample_dict sample_kwargs
           [audio_chunk [x01; x02]; word_chunk; audio_chunk [x03]]).
  - reflexivity.
  - exact sample_call.
  - reflexivity.
Defined.


Lemma stream_step_collects_witness :
  Forall (fun piece => piece <> [])
    (fold_left stream_step [audio_chunk [x01; x02]; word_chunk; audio_chunk []] [])
  /\ length (fold_left stream_step [audio_chunk [x01; x02]; word_chunk; audio_chunk []] [])
     <= length (@nil (list byte)) + 3.
Proof.
  apply (stream_step_collects [audio_chunk [x01; x02]; word_chunk; audio_chunk []] []).
  constructor.
Defined.

Lemma voices_api_real_list_witness :
  voices_api sample_lib (Request VNone)
  = (Returned (jsonify (list_to_map [(py "ok", VBool true); (py "fallback", VBool false);
                                     (py "voices", VList [VStr (py "en-US-AriaNeural")])]) 200),
     [CallListVoices]).
Proof.
  apply (voices_api_real_list sample_lib (Request VNone)); reflexivity.
Defined.

Lemma voices_api_manager_witness :
  exists r,
    result (voices_api manager_lib (Request VNone)) = Returned r
    /\ json_field r (py "ok") = Some (VBool true)
    /\ json_field r (py "voices") = Some (VList []).
Proof.
  apply (voices_api_manager manager_lib (Request VNone) None); reflexivity.
Defined.
